(** * flask_digest_auth.algo: the HTTP digest response computation

    A shallow embedding of [src/flask_digest_auth/algo.py] together with the
    two library operations it is built on: [hashlib.md5(..).hexdigest()]
    (RFC 1321) and [str.encode("utf8")].

    - a Python [str] is the list of its Unicode code points ([pystr]);
    - a Python [bytes] is a [list byte];
    - a 32-bit word of the MD5 state is a [Z] reduced modulo [2^32];
    - a call either returns a value or raises ([result]). *)

From Stdlib Require Import ZArith List String Ascii Bool Lia.
From Stdlib Require Import Init.Byte.
Import ListNotations.
Local Open Scope Z_scope.

(* ================================================================= *)
(** ** Outcomes of a call *)

(** A Python [str]: its code points, each in [0 .. 0x10FFFF].  Lone
    surrogates ([0xD800 .. 0xDFFF]) are legal elements of a [str]. *)
Definition pystr := list Z.

(** A Python [bytes]. *)
Definition pybytes := list byte.

(** Modelled from the spec: the class [UnauthorizedException] of
    [flask_digest_auth/exception.py], which is not among the sources; it is
    the spec's single error kind (InvalidParameters, surfaced as an
    unauthorized signal) and carries the message it is raised with.
    [UnicodeEncodeError] is the built-in exception that [str.encode("utf8")]
    raises on a lone surrogate. *)
Inductive exn : Type :=
| UnauthorizedException (msg : pystr)
| UnicodeEncodeError.

Inductive result (A : Type) : Type :=
| Return (a : A)
| Raise (e : exn).
Arguments Return {A} a.
Arguments Raise {A} e.

Definition bind {A B : Type} (m : result A) (k : A -> result B) : result B :=
  match m with
  | Return a => k a
  | Raise e => Raise e
  end.

Notation "x <- m ;; k" := (bind m (fun x => k))
  (at level 61, m at next level, right associativity).

(** String literals of the source, as code points. *)
Definition lit (s : string) : pystr :=
  map (fun a => Z.of_nat (nat_of_ascii a)) (list_ascii_of_string s).

(** The double quote character (code point 34) of the source's messages. *)
Definition dq : pystr := [34].

(** [==] on [str]. *)
Fixpoint str_eqb (s t : pystr) : bool :=
  match s, t with
  | [], [] => true
  | c :: s', d :: t' => (c =? d) && str_eqb s' t'
  | _, _ => false
  end.

(* ================================================================= *)
(** ** [str.encode("utf8")] *)

Module Utf8.

Definition byte_of_Z (z : Z) : byte :=
  match Byte.of_N (Z.to_N (z mod 256)) with
  | Some b => b
  | None => x00
  end.

Definition Z_of_byte (b : byte) : Z := Z.of_N (Byte.to_N b).

(** Code points in [0xD800 .. 0xDFFF]. *)
Definition is_surrogate (c : Z) : bool := (0xD800 <=? c) && (c <=? 0xDFFF).

(** The code points the strict UTF-8 codec encodes. *)
Definition is_scalar (c : Z) : bool :=
  (0 <=? c) && (c <=? 0x10FFFF) && negb (is_surrogate c).

Definition encode_char (c : Z) : result pybytes :=
  if negb (is_scalar c) then Raise UnicodeEncodeError
  else if c <? 0x80 then Return [byte_of_Z c]
  else if c <? 0x800 then
    Return [byte_of_Z (Z.lor 0xC0 (Z.shiftr c 6));
            byte_of_Z (Z.lor 0x80 (Z.land c 0x3F))]
  else if c <? 0x10000 then
    Return [byte_of_Z (Z.lor 0xE0 (Z.shiftr c 12));
            byte_of_Z (Z.lor 0x80 (Z.land (Z.shiftr c 6) 0x3F));
            byte_of_Z (Z.lor 0x80 (Z.land c 0x3F))]
  else
    Return [byte_of_Z (Z.lor 0xF0 (Z.shiftr c 18));
            byte_of_Z (Z.lor 0x80 (Z.land (Z.shiftr c 12) 0x3F));
            byte_of_Z (Z.lor 0x80 (Z.land (Z.shiftr c 6) 0x3F));
            byte_of_Z (Z.lor 0x80 (Z.land c 0x3F))].

Fixpoint encode (s : pystr) : result pybytes :=
  match s with
  | [] => Return []
  | c :: s' =>
      b <- encode_char c ;;
      bs <- encode s' ;;
      Return (b ++ bs)
  end.

(** The strings on which [encode] succeeds. *)
Definition encodable (s : pystr) : bool := forallb is_scalar s.

End Utf8.

(* ================================================================= *)
(** ** [hashlib.md5]: RFC 1321 *)

Module MD5.

Definition mask32 : Z := 0xFFFFFFFF.
Definition wrap (x : Z) : Z := x mod 2 ^ 32.
Definition add32 (x y : Z) : Z := wrap (x + y).
Definition not32 (x : Z) : Z := Z.lxor x mask32.
Definition rotl32 (x n : Z) : Z :=
  Z.lor (wrap (Z.shiftl x n)) (Z.shiftr x (32 - n)).

(** The sine table: [T i = floor (2^32 * abs (sin (i + 1)))]. *)
Definition T : list Z :=
  [ 0xd76aa478; 0xe8c7b756; 0x242070db; 0xc1bdceee;
    0xf57c0faf; 0x4787c62a; 0xa8304613; 0xfd469501;
    0x698098d8; 0x8b44f7af; 0xffff5bb1; 0x895cd7be;
    0x6b901122; 0xfd987193; 0xa679438e; 0x49b40821;
    0xf61e2562; 0xc040b340; 0x265e5a51; 0xe9b6c7aa;
    0xd62f105d; 0x02441453; 0xd8a1e681; 0xe7d3fbc8;
    0x21e1cde6; 0xc33707d6; 0xf4d50d87; 0x455a14ed;
    0xa9e3e905; 0xfcefa3f8; 0x676f02d9; 0x8d2a4c8a;
    0xfffa3942; 0x8771f681; 0x6d9d6122; 0xfde5380c;
    0xa4beea44; 0x4bdecfa9; 0xf6bb4b60; 0xbebfbc70;
    0x289b7ec6; 0xeaa127fa; 0xd4ef3085; 0x04881d05;
    0xd9d4d039; 0xe6db99e5; 0x1fa27cf8; 0xc4ac5665;
    0xf4292244; 0x432aff97; 0xab9423a7; 0xfc93a039;
    0x655b59c3; 0x8f0ccc92; 0xffeff47d; 0x85845dd1;
    0x6fa87e4f; 0xfe2ce6e0; 0xa3014314; 0x4e0811a1;
    0xf7537e82; 0xbd3af235; 0x2ad7d2bb; 0xeb86d391 ].

(** Per-step left rotations. *)
Definition S : list Z :=
  [ 7; 12; 17; 22; 7; 12; 17; 22; 7; 12; 17; 22; 7; 12; 17; 22;
    5;  9; 14; 20; 5;  9; 14; 20; 5;  9; 14; 20; 5;  9; 14; 20;
    4; 11; 16; 23; 4; 11; 16; 23; 4; 11; 16; 23; 4; 11; 16; 23;
    6; 10; 15; 21; 6; 10; 15; 21; 6; 10; 15; 21; 6; 10; 15; 21 ].

Record state : Type := mkState { sA : Z; sB : Z; sC : Z; sD : Z }.

Definition init : state :=
  mkState 0x67452301 0xefcdab89 0x98badcfe 0x10325476.

(** The auxiliary function of step [i] and the index of the message word
    it reads. *)
Definition aux (i : nat) (b c d : Z) : Z :=
  if (i <? 16)%nat then Z.lor (Z.land b c) (Z.land (not32 b) d)
  else if (i <? 32)%nat then Z.lor (Z.land d b) (Z.land (not32 d) c)
  else if (i <? 48)%nat then Z.lxor b (Z.lxor c d)
  else Z.lxor c (Z.lor b (not32 d)).

Definition word_index (i : nat) : nat :=
  if (i <? 16)%nat then i
  else if (i <? 32)%nat then (5 * i + 1) mod 16
  else if (i <? 48)%nat then (3 * i + 5) mod 16
  else (7 * i) mod 16.

Definition step (M : list Z) (st : state) (i : nat) : state :=
  let f := add32 (add32 (add32 (aux i (sB st) (sC st) (sD st)) (sA st))
                        (nth i T 0))
                 (nth (word_index i) M 0) in
  mkState (sD st) (add32 (sB st) (rotl32 f (nth i S 0))) (sB st) (sC st).

(** Little-endian 32-bit words of a block. *)
Fixpoint words (bs : list Z) : list Z :=
  match bs with
  | b0 :: b1 :: b2 :: b3 :: rest =>
      (b0 + 2 ^ 8 * b1 + 2 ^ 16 * b2 + 2 ^ 24 * b3) :: words rest
  | _ => []
  end.

Definition block (st : state) (bs : list Z) : state :=
  let st' := fold_left (step (words bs)) (seq 0 64) st in
  mkState (add32 (sA st) (sA st')) (add32 (sB st) (sB st'))
          (add32 (sC st) (sC st')) (add32 (sD st) (sD st')).

(** Little-endian bytes of the low [8 * n] bits of [x]. *)
Fixpoint le_bytes (n : nat) (x : Z) : list Z :=
  match n with
  | O => []
  | Datatypes.S n' => x mod 256 :: le_bytes n' (x / 256)
  end.

(** Padding: a 1 bit, zeros up to 56 modulo 64, then the bit length on
    64 bits. *)
Definition pad (bs : list Z) : list Z :=
  let len := Z.of_nat (List.length bs) in
  let zeros := Z.to_nat ((55 - len) mod 64) in
  bs ++ [0x80] ++ repeat 0 zeros ++ le_bytes 8 ((8 * len) mod 2 ^ 64).

(** One block per unit of fuel; the length of [bs] is always enough. *)
Fixpoint blocks (fuel : nat) (st : state) (bs : list Z) : state :=
  match fuel with
  | O => st
  | Datatypes.S fuel' =>
      match bs with
      | [] => st
      | _ => blocks fuel' (block st (firstn 64 bs)) (skipn 64 bs)
      end
  end.

(** [md5(data).digest()], as byte values. *)
Definition digest (data : pybytes) : list Z :=
  let bs := pad (map Utf8.Z_of_byte data) in
  let st := blocks (List.length bs) init bs in
  le_bytes 4 (sA st) ++ le_bytes 4 (sB st) ++
  le_bytes 4 (sC st) ++ le_bytes 4 (sD st).

Definition hex_digit (n : Z) : Z := if n <? 10 then 48 + n else 87 + n.

Definition hex_byte (b : Z) : pystr := [hex_digit (b / 16); hex_digit (b mod 16)].

(** [md5(data).hexdigest()]. *)
Definition hexdigest (data : pybytes) : pystr :=
  flat_map hex_byte (digest data).

End MD5.

(* ================================================================= *)
(** ** [flask_digest_auth/algo.py] *)

Module Algo.

(** What a call of a Python function evaluates to: a [str], or [None] when
    control falls off the end of the body. *)
Inductive pyval : Type :=
| PyStr (s : pystr)
| PyNone.

(** [x is None] and [x == "literal"] on an [Optional[str]]. *)
Definition is_None (x : option pystr) : bool :=
  match x with
  | None => true
  | Some _ => false
  end.

Definition eq_lit (x : option pystr) (l : string) : bool :=
  match x with
  | None => false
  | Some s => str_eqb s (lit l)
  end.

(** [{x}] inside an f-string. *)
Definition fmt (x : option pystr) : pystr :=
  match x with
  | None => lit "None"
  | Some s => s
  end.

(** [md5(s.encode("utf8")).hexdigest()]. *)
Definition md5_utf8_hexdigest (s : pystr) : result pystr :=
  b <- Utf8.encode s ;;
  Return (MD5.hexdigest b).

(** The messages of the raised [UnauthorizedException]s. *)
Definition msg_missing_cnonce_algorithm (algorithm : option pystr) : pystr :=
  lit "Missing " ++ dq ++ lit "cnonce" ++ dq ++ lit " with algorithm="
      ++ dq ++ fmt algorithm ++ dq.

Definition msg_unsupported_algorithm (algorithm : option pystr) : pystr :=
  lit "Unsupported algorithm=" ++ dq ++ fmt algorithm ++ dq.

Definition msg_missing_body (qop : option pystr) : pystr :=
  lit "Missing " ++ dq ++ lit "body" ++ dq ++ lit " with qop="
      ++ dq ++ fmt qop ++ dq.

Definition msg_unsupported_qop (qop : option pystr) : pystr :=
  lit "Unsupported qop=" ++ dq ++ fmt qop ++ dq.

Definition msg_missing_cnonce_qop (qop : option pystr) : pystr :=
  lit "Missing " ++ dq ++ lit "cnonce" ++ dq ++ lit " with the qop="
      ++ dq ++ fmt qop ++ dq.

Definition msg_missing_nc_qop (qop : option pystr) : pystr :=
  lit "Missing " ++ dq ++ lit "nc" ++ dq ++ lit " with the qop="
      ++ dq ++ fmt qop ++ dq.

(** algo.py, line 29. *)
Definition make_password_hash (realm username password : pystr)
  : result pystr :=
  md5_utf8_hexdigest (username ++ lit ":" ++ realm ++ lit ":" ++ password).

(** algo.py, line 81. *)
Definition __calc_ha1 (password_hash nonce : pystr)
           (algorithm cnonce : option pystr) : result pystr :=
  if is_None algorithm || eq_lit algorithm "MD5" then
    Return password_hash
  else if eq_lit algorithm "MD5-sess" then
    match cnonce with
    | None =>
        Raise (UnauthorizedException (msg_missing_cnonce_algorithm algorithm))
    | Some cn =>
        md5_utf8_hexdigest (password_hash ++ lit ":" ++ nonce ++ lit ":" ++ cn)
    end
  else
    Raise (UnauthorizedException (msg_unsupported_algorithm algorithm)).

(** algo.py, line 107. *)
Definition __calc_ha2 (method uri : pystr) (qop : option pystr)
           (body : option pybytes) : result pystr :=
  if is_None qop || eq_lit qop "auth" then
    md5_utf8_hexdigest (method ++ lit ":" ++ uri)
  else if eq_lit qop "auth-int" then
    match body with
    | None => Raise (UnauthorizedException (msg_missing_body qop))
    | Some b =>
        md5_utf8_hexdigest
          (method ++ lit ":" ++ uri ++ lit ":" ++ MD5.hexdigest b)
    end
  else
    Raise (UnauthorizedException (msg_unsupported_qop qop)).

(** The default of the [algorithm] parameter of [calc_response]; the
    other optional parameters default to [None]. *)
Definition default_algorithm : option pystr := Some (lit "MD5-sess").

(** algo.py, line 40.  The last [if] has no [else]: with [cnonce] present
    the body ends there and the call evaluates to [None]. *)
Definition calc_response (method uri password_hash nonce : pystr)
           (qop algorithm cnonce nc : option pystr) (body : option pybytes)
  : result pyval :=
  ha1 <- __calc_ha1 password_hash nonce algorithm cnonce ;;
  ha2 <- __calc_ha2 method uri qop body ;;
  if is_None qop then
    r <- md5_utf8_hexdigest (ha1 ++ lit ":" ++ nonce ++ lit ":" ++ ha2) ;;
    Return (PyStr r)
  else if eq_lit qop "auth" || eq_lit qop "auth-int" then
    match cnonce with
    | None => Raise (UnauthorizedException (msg_missing_cnonce_qop qop))
    | Some cn =>
        match nc with
        | None => Raise (UnauthorizedException (msg_missing_nc_qop qop))
        | Some n =>
            r <- md5_utf8_hexdigest
                   (ha1 ++ lit ":" ++ nonce ++ lit ":" ++ n ++ lit ":" ++ cn
                        ++ lit ":" ++ fmt qop ++ lit ":" ++ ha2) ;;
            Return (PyStr r)
        end
    end
  else
    match cnonce with
    | None => Raise (UnauthorizedException (msg_unsupported_qop qop))
    | Some _ => Return PyNone
    end.

End Algo.
Import Algo.

(** Lowercase hexadecimal digits: [0-9a-f]. *)
Definition is_lower_hex (c : Z) : bool :=
  ((48 <=? c) && (c <=? 57)) || ((97 <=? c) && (c <=? 102)).

(** A string of exactly 32 lowercase hexadecimal characters. *)
Definition is_hex32 (s : pystr) : bool :=
  (List.length s =? 32)%nat && forallb is_lower_hex s.

(** The worked example of RFC 2617, section 3.5: the stored hash comes from
    [make_password_hash], the response from [calc_response]. *)
Definition rfc2617_example : result pyval :=
  password_hash <- make_password_hash (lit "testrealm@host.com")
                     (lit "Mufasa") (lit "Circle Of Life") ;;
  calc_response (lit "GET") (lit "/dir/index.html") password_hash
    (lit "dcd98b7102dd2f0e8b11d0f600bfb0c093")
    (Some (lit "auth")) (Some (lit "MD5"))
    (Some (lit "0a4f113b")) (Some (lit "00000001")) None.

(** A [bytes] literal of ASCII characters, for the test vectors. *)
Definition ascii_bytes (s : string) : pybytes :=
  map (fun a => Utf8.byte_of_Z (Z.of_nat (nat_of_ascii a)))
      (list_ascii_of_string s).

(** The UTF-8 bytes of a string the codec accepts (and no bytes for one
    it refuses), and the hex digest of these bytes: the value of
    [md5(s.encode("utf8")).hexdigest()] whenever that expression has one. *)
Definition utf8 (s : pystr) : pybytes :=
  match Utf8.encode s with
  | Return b => b
  | Raise _ => []
  end.

Definition md5_hex (s : pystr) : pystr := MD5.hexdigest (utf8 s).

Definition is_Some {A : Type} (x : option A) : bool :=
  match x with
  | Some _ => true
  | None => false
  end.

(** An optional string that is absent or can be encoded. *)
Definition opt_encodable (x : option pystr) : bool :=
  match x with
  | None => true
  | Some s => Utf8.encodable s
  end.

(** The argument tuples that [calc_response] answers with a digest, as a
    decision procedure: the four strings that are always hashed can be
    encoded; the algorithm is unset, MD5, or MD5-sess with an encodable
    cnonce; qop is unset, or it is auth, or auth-int with a body, and then
    cnonce and nc are present and encodable. *)
Definition calc_response_accepts (method uri password_hash nonce : pystr)
           (qop algorithm cnonce nc : option pystr) (body : option pybytes)
  : bool :=
  Utf8.encodable method && Utf8.encodable uri
  && Utf8.encodable password_hash && Utf8.encodable nonce
  && (is_None algorithm || eq_lit algorithm "MD5"
      || (eq_lit algorithm "MD5-sess" && is_Some cnonce
          && opt_encodable cnonce))
  && (is_None qop
      || ((eq_lit qop "auth" || (eq_lit qop "auth-int" && is_Some body))
          && is_Some cnonce && is_Some nc
          && opt_encodable cnonce && opt_encodable nc)).

(* ================================================================= *)
(** ** Basic facts: strings, outcomes, the codec and the digest *)

Lemma str_eqb_eq (s t : pystr) : str_eqb s t = true <-> s = t.
Proof.
  revert t; induction s as [|c s IH]; intros [|d t]; simpl;
    try (split; [discriminate | discriminate]); try tauto.
  rewrite andb_true_iff, Z.eqb_eq, IH.
  split; [intros [-> ->]; reflexivity | intros E; inversion E; auto].
Qed.

Lemma str_eqb_refl (s : pystr) : str_eqb s s = true.
Proof. apply str_eqb_eq; reflexivity. Qed.

Lemma str_eqb_neq (s t : pystr) : s <> t -> str_eqb s t = false.
Proof.
  intros N; destruct (str_eqb s t) eqn:E; [|reflexivity].
  apply str_eqb_eq in E; contradiction.
Qed.

Lemma bind_Return {A B} (m : result A) (k : A -> result B) (b : B) :
  bind m k = Return b -> exists a, m = Return a /\ k a = Return b.
Proof. destruct m as [a|e]; simpl; [eauto | discriminate]. Qed.

Section Codec.

Import Utf8.

Lemma encode_char_scalar (c : Z) :
  is_scalar c = true -> exists b, encode_char c = Return b.
Proof.
  intros H; unfold encode_char; rewrite H; simpl.
  repeat match goal with |- context [if ?t then _ else _] => destruct t end;
    eauto.
Qed.

Lemma encode_char_Return (c : Z) (b : pybytes) :
  encode_char c = Return b -> is_scalar c = true.
Proof.
  unfold encode_char; destruct (is_scalar c); simpl; [reflexivity|discriminate].
Qed.

(** [encode] succeeds exactly on the strings of scalar values. *)
Lemma encode_encodable (s : pystr) :
  encodable s = true <-> exists b, encode s = Return b.
Proof.
  induction s as [|c s IH]; simpl.
  - split; eauto.
  - rewrite andb_true_iff, IH; split.
    + intros [Hc [bs Hs]]. destruct (encode_char_scalar c Hc) as [b Hb].
      rewrite Hb, Hs; simpl; eauto.
    + intros [b Hb]. apply bind_Return in Hb as (b1 & H1 & Hb).
      apply bind_Return in Hb as (b2 & H2 & _).
      split; [eapply encode_char_Return; eauto | eauto].
Qed.

Lemma encodable_app (s t : pystr) :
  encodable (s ++ t) = encodable s && encodable t.
Proof. apply forallb_app. Qed.

End Codec.

Section Digest.

Import MD5.

Lemma le_bytes_length (n : nat) (x : Z) : List.length (le_bytes n x) = n.
Proof. revert x; induction n; intros x; simpl; [|rewrite IHn]; reflexivity. Qed.

Lemma le_bytes_range (n : nat) (x : Z) :
  Forall (fun b => 0 <= b < 256) (le_bytes n x).
Proof.
  revert x; induction n; intros x; simpl; constructor; auto.
  apply Z.mod_pos_bound; lia.
Qed.

Lemma digest_length (data : pybytes) : List.length (digest data) = 16%nat.
Proof.
  unfold digest; cbv zeta.
  rewrite !length_app, !le_bytes_length; reflexivity.
Qed.

Lemma digest_range (data : pybytes) :
  Forall (fun b => 0 <= b < 256) (digest data).
Proof.
  unfold digest; cbv zeta.
  repeat (apply Forall_app; split); apply le_bytes_range.
Qed.

(** More fuel than the number of bytes changes nothing: [blocks] never
    stops for lack of fuel in [digest]. *)
Lemma blocks_fuel (f1 f2 : nat) (st : state) (bs : list Z) :
  (List.length bs <= f1)%nat -> (List.length bs <= f2)%nat ->
  blocks f1 st bs = blocks f2 st bs.
Proof.
  revert f2 st bs; induction f1 as [|f1 IH]; intros f2 st bs H1 H2.
  - destruct bs; [|simpl in H1; lia]. destruct f2; reflexivity.
  - destruct f2 as [|f2].
    + destruct bs; [reflexivity | simpl in H2; lia].
    + destruct bs as [|b bs']; [reflexivity|].
      cbn [blocks]. apply IH; rewrite length_skipn; simpl in *; lia.
Qed.

(** The padded message is a whole number of 64 byte blocks. *)
Lemma pad_length (bs : list Z) : Z.of_nat (List.length (pad bs)) mod 64 = 0.
Proof.
  unfold pad; cbv zeta.
  rewrite !length_app, repeat_length, le_bytes_length; cbn [List.length].
  set (n := Z.of_nat (List.length bs)).
  assert (Hk : 0 <= (55 - n) mod 64 < 64) by (apply Z.mod_pos_bound; lia).
  rewrite !Nat2Z.inj_add, Z2Nat.id by lia. fold n.
  pose proof (Z.div_mod (55 - n) 64 ltac:(lia)) as Hd.
  replace (n + (Z.of_nat 1 + ((55 - n) mod 64 + Z.of_nat 8)))
    with ((1 - (55 - n) / 64) * 64) by lia.
  apply Z.mod_mul; lia.
Qed.

End Digest.

Lemma hex_digit_lower (n : Z) :
  0 <= n < 16 -> is_lower_hex (MD5.hex_digit n) = true.
Proof.
  intros H; unfold MD5.hex_digit, is_lower_hex.
  destruct (Z.ltb_spec n 10).
  - apply orb_true_iff; left; apply andb_true_iff; split; apply Z.leb_le; lia.
  - apply orb_true_iff; right; apply andb_true_iff; split; apply Z.leb_le; lia.
Qed.

Lemma hex_bytes_lower (l : list Z) :
  Forall (fun b => 0 <= b < 256) l ->
  List.length (flat_map MD5.hex_byte l) = (2 * List.length l)%nat /\
  forallb is_lower_hex (flat_map MD5.hex_byte l) = true.
Proof.
  induction 1 as [|b l Hb _ [IHlen IHhex]]; [split; reflexivity|].
  split.
  - simpl; rewrite IHlen; lia.
  - cbn [flat_map MD5.hex_byte app forallb]. rewrite IHhex.
    rewrite !hex_digit_lower; [reflexivity | |].
    + apply Z.mod_pos_bound; lia.
    + split; [apply Z.div_pos; lia | apply Z.div_lt_upper_bound; lia].
Qed.

(** Every [hexdigest()] is 32 lowercase hexadecimal characters. *)
Lemma hexdigest_hex32 (data : pybytes) : is_hex32 (MD5.hexdigest data) = true.
Proof.
  unfold is_hex32, MD5.hexdigest.
  destruct (hex_bytes_lower (MD5.digest data) (digest_range data))
    as [Hlen Hhex].
  rewrite Hlen, Hhex, digest_length; reflexivity.
Qed.

Lemma md5_utf8_hexdigest_hex32 (s r : pystr) :
  md5_utf8_hexdigest s = Return r -> is_hex32 r = true.
Proof.
  unfold md5_utf8_hexdigest; intros H.
  apply bind_Return in H as (b & _ & H). injection H as <-.
  apply hexdigest_hex32.
Qed.

Lemma md5_utf8_hexdigest_encodable (s : pystr) :
  Utf8.encodable s = true ->
  exists b, Utf8.encode s = Return b /\
            md5_utf8_hexdigest s = Return (MD5.hexdigest b).
Proof.
  intros H; apply encode_encodable in H as [b Hb].
  exists b; split; [assumption|].
  unfold md5_utf8_hexdigest; rewrite Hb; reflexivity.
Qed.

(* ================================================================= *)
(** ** The digest against the RFC 1321 test suite (appendix A.5) *)

Example md5_empty :
  MD5.hexdigest (ascii_bytes "") = lit "d41d8cd98f00b204e9800998ecf8427e".
Proof. vm_compute. reflexivity. Qed.

Example md5_abc :
  MD5.hexdigest (ascii_bytes "abc") = lit "900150983cd24fb0d6963f7d28e17f72".
Proof. vm_compute. reflexivity. Qed.

Example md5_message_digest :
  MD5.hexdigest (ascii_bytes "message digest")
  = lit "f96b697d7cb7938d525a2f31aaf161d0".
Proof. vm_compute. reflexivity. Qed.

(** Eighty bytes: two blocks. *)
Example md5_digits :
  MD5.hexdigest (ascii_bytes
    "12345678901234567890123456789012345678901234567890123456789012345678901234567890")
  = lit "57edf4a22be3c955ac49da2e2107b67a".
Proof. vm_compute. reflexivity. Qed.

(** The codec on one, two, three and four byte characters. *)
Example encode_widths :
  Utf8.encode [0x41; 0xE9; 0x20AC; 0x1F600]
  = Return [x41; xc3; xa9; xe2; x82; xac; xf0; x9f; x98; x80].
Proof. vm_compute. reflexivity. Qed.

(* ================================================================= *)
(** ** The branches of the three calculators *)

Lemma eq_lit_true (x : option pystr) (l : string) :
  eq_lit x l = true <-> x = Some (lit l).
Proof.
  destruct x as [s|]; simpl.
  - rewrite str_eqb_eq; split; [intros ->; reflexivity | intros E; inversion E; auto].
  - split; discriminate.
Qed.

Lemma eq_lit_Some_neq (s : pystr) (l : string) :
  s <> lit l -> eq_lit (Some s) l = false.
Proof. intros N; simpl; apply str_eqb_neq; assumption. Qed.

(** [__calc_ha2] returns only for the three supported values of [qop]. *)
Lemma calc_ha2_Return_qop (method uri : pystr) (qop : option pystr)
      (body : option pybytes) (ha2 : pystr) :
  __calc_ha2 method uri qop body = Return ha2 ->
  qop = None \/ qop = Some (lit "auth") \/ qop = Some (lit "auth-int").
Proof.
  unfold __calc_ha2; destruct qop as [q|]; [|auto]; simpl.
  destruct (str_eqb q (lit "auth")) eqn:E1.
  - apply str_eqb_eq in E1; subst; auto.
  - destruct (str_eqb q (lit "auth-int")) eqn:E2; [|discriminate].
    apply str_eqb_eq in E2; subst; auto.
Qed.

Lemma calc_ha2_unsupported (method uri q : pystr) (body : option pybytes) :
  q <> lit "auth" -> q <> lit "auth-int" ->
  __calc_ha2 method uri (Some q) body
  = Raise (UnauthorizedException (msg_unsupported_qop (Some q))).
Proof.
  intros N1 N2; unfold __calc_ha2.
  rewrite !eq_lit_Some_neq by assumption; reflexivity.
Qed.

(** A failure of HA1 is the failure of the whole call. *)
Lemma calc_response_ha1_Raise method uri password_hash nonce qop algorithm
      cnonce nc body (e : exn) :
  __calc_ha1 password_hash nonce algorithm cnonce = Raise e ->
  calc_response method uri password_hash nonce qop algorithm cnonce nc body
  = Raise e.
Proof. intros H; unfold calc_response; rewrite H; reflexivity. Qed.

Lemma calc_ha1_md5_sess_no_cnonce (password_hash nonce : pystr) :
  __calc_ha1 password_hash nonce (Some (lit "MD5-sess")) None
  = Raise (UnauthorizedException
             (msg_missing_cnonce_algorithm (Some (lit "MD5-sess")))).
Proof. reflexivity. Qed.

(** Only the [MD5-sess] branch of [__calc_ha1] reads [cnonce]. *)
Lemma calc_ha1_cnonce (password_hash nonce : pystr)
      (algorithm cnonce cnonce' : option pystr) :
  (algorithm = Some (lit "MD5-sess") -> cnonce = cnonce') ->
  __calc_ha1 password_hash nonce algorithm cnonce
  = __calc_ha1 password_hash nonce algorithm cnonce'.
Proof.
  intros H; unfold __calc_ha1.
  destruct (is_None algorithm || eq_lit algorithm "MD5"); [reflexivity|].
  destruct (eq_lit algorithm "MD5-sess") eqn:E; [|reflexivity].
  apply eq_lit_true in E; rewrite (H E); reflexivity.
Qed.

(** Every returned value of [calc_response] is a digest. *)
Lemma calc_response_Return method uri password_hash nonce qop algorithm
      cnonce nc body (v : pyval) :
  calc_response method uri password_hash nonce qop algorithm cnonce nc body
  = Return v ->
  exists h, v = PyStr h /\ is_hex32 h = true.
Proof.
  unfold calc_response; intros H.
  apply bind_Return in H as (ha1 & _ & H).
  apply bind_Return in H as (ha2 & H2 & H).
  apply calc_ha2_Return_qop in H2 as [-> | [-> | ->]]; simpl in H.
  - apply bind_Return in H as (r & Hr & H). injection H as <-.
    eauto using md5_utf8_hexdigest_hex32.
  - destruct cnonce as [cn|]; [|discriminate].
    destruct nc as [n|]; [|discriminate].
    apply bind_Return in H as (r & Hr & H). injection H as <-.
    eauto using md5_utf8_hexdigest_hex32.
  - destruct cnonce as [cn|]; [|discriminate].
    destruct nc as [n|]; [|discriminate].
    apply bind_Return in H as (r & Hr & H). injection H as <-.
    eauto using md5_utf8_hexdigest_hex32.
Qed.

(* ================================================================= *)
(** ** Hashing encodable strings; inverting the calculators *)

Lemma md5_utf8_hexdigest_ok (s : pystr) :
  Utf8.encodable s = true -> md5_utf8_hexdigest s = Return (md5_hex s).
Proof.
  intros H; destruct (md5_utf8_hexdigest_encodable s H) as (b & Hb & Hh).
  unfold md5_hex, utf8; rewrite Hb; exact Hh.
Qed.

Lemma md5_utf8_hexdigest_Return_inv (s h : pystr) :
  md5_utf8_hexdigest s = Return h ->
  Utf8.encodable s = true /\ h = md5_hex s.
Proof.
  intros H.
  assert (E : Utf8.encodable s = true).
  { unfold md5_utf8_hexdigest in H. apply bind_Return in H as (b & Hb & _).
    apply encode_encodable; eauto. }
  split; [exact E|].
  rewrite (md5_utf8_hexdigest_ok s E) in H; congruence.
Qed.

Lemma md5_utf8_hexdigest_Raise (s : pystr) (e : exn) :
  md5_utf8_hexdigest s = Raise e -> Utf8.encodable s = false.
Proof.
  intros H; destruct (Utf8.encodable s) eqn:E; [|reflexivity].
  rewrite (md5_utf8_hexdigest_ok s E) in H; discriminate.
Qed.

Lemma is_lower_hex_scalar (c : Z) :
  is_lower_hex c = true -> Utf8.is_scalar c = true.
Proof.
  unfold is_lower_hex, Utf8.is_scalar, Utf8.is_surrogate; intros H.
  rewrite orb_true_iff, !andb_true_iff, !Z.leb_le in H.
  rewrite !andb_true_iff, negb_true_iff, andb_false_iff, !Z.leb_le, !Z.leb_gt.
  lia.
Qed.

(** A hex digest is itself a string the codec accepts. *)
Lemma hexdigest_encodable (data : pybytes) :
  Utf8.encodable (MD5.hexdigest data) = true.
Proof.
  pose proof (hexdigest_hex32 data) as H.
  unfold is_hex32 in H; apply andb_true_iff in H as [_ H].
  unfold Utf8.encodable; rewrite forallb_forall in *.
  intros c Hc; apply is_lower_hex_scalar, H, Hc.
Qed.

Lemma md5_hex_encodable (s : pystr) : Utf8.encodable (md5_hex s) = true.
Proof. apply hexdigest_encodable. Qed.

Lemma encodable_colon : Utf8.encodable (lit ":") = true.
Proof. reflexivity. Qed.

(** Encodability goals over concatenations of known strings. *)
Ltac enc :=
  rewrite ?encodable_app;
  repeat match goal with
         | |- _ && _ = true => apply andb_true_iff; split
         end;
  first [ assumption | apply md5_hex_encodable | apply hexdigest_encodable
        | reflexivity ].

(** Split the conjunctions of a boolean hypothesis. *)
Ltac split_andb :=
  repeat match goal with
         | H : _ && _ = true |- _ => apply andb_true_iff in H; destruct H
         end.

Lemma calc_ha1_Return_inv (password_hash nonce : pystr)
      (algorithm cnonce : option pystr) (ha1 : pystr) :
  __calc_ha1 password_hash nonce algorithm cnonce = Return ha1 ->
  (is_None algorithm || eq_lit algorithm "MD5" = true /\ ha1 = password_hash)
  \/ (is_None algorithm || eq_lit algorithm "MD5" = false
      /\ eq_lit algorithm "MD5-sess" = true
      /\ exists cn,
          cnonce = Some cn
          /\ Utf8.encodable
               (password_hash ++ lit ":" ++ nonce ++ lit ":" ++ cn) = true
          /\ ha1 = md5_hex (password_hash ++ lit ":" ++ nonce ++ lit ":" ++ cn)).
Proof.
  unfold __calc_ha1.
  destruct (is_None algorithm || eq_lit algorithm "MD5").
  - intros E; injection E as <-; left; auto.
  - destruct (eq_lit algorithm "MD5-sess"); [|discriminate].
    destruct cnonce as [cn|]; [|discriminate].
    intros E; apply md5_utf8_hexdigest_Return_inv in E as [E ->].
    right; repeat split; eauto.
Qed.

Lemma calc_ha2_Return_inv (method uri : pystr) (qop : option pystr)
      (body : option pybytes) (ha2 : pystr) :
  __calc_ha2 method uri qop body = Return ha2 ->
  Utf8.encodable method = true /\ Utf8.encodable uri = true
  /\ Utf8.encodable ha2 = true
  /\ (qop = None \/ qop = Some (lit "auth")
      \/ (qop = Some (lit "auth-int") /\ exists b, body = Some b)).
Proof.
  intros E; pose proof (calc_ha2_Return_qop _ _ _ _ _ E) as Hq.
  destruct Hq as [-> | [-> | ->]]; cbn in E.
  - apply md5_utf8_hexdigest_Return_inv in E as [E ->].
    rewrite !encodable_app in E; split_andb.
    repeat split; auto using md5_hex_encodable.
  - apply md5_utf8_hexdigest_Return_inv in E as [E ->].
    rewrite !encodable_app in E; split_andb.
    repeat split; auto using md5_hex_encodable.
  - destruct body as [b|]; [|discriminate].
    apply md5_utf8_hexdigest_Return_inv in E as [E ->].
    rewrite !encodable_app in E; split_andb.
    repeat split; eauto 6 using md5_hex_encodable.
Qed.

Lemma eq_lit_refl (l : string) : eq_lit (Some (lit l)) l = true.
Proof. apply str_eqb_refl. Qed.

Lemma eq_lit_auth_int_auth : eq_lit (Some (lit "auth-int")) "auth" = false.
Proof. reflexivity. Qed.

(** Decide the tests on a known qop, leaving the strings as they are. *)
Ltac qop_tests :=
  cbn [is_None orb];
  rewrite ?eq_lit_refl, ?eq_lit_auth_int_auth;
  cbn [orb andb fmt is_Some opt_encodable].

Tactic Notation "qop_tests" "in" hyp(H) :=
  cbn [is_None orb] in H;
  rewrite ?eq_lit_refl, ?eq_lit_auth_int_auth in H;
  cbn [orb andb fmt is_Some opt_encodable] in H.

(* ================================================================= *)
(** ** The claims *)

(** C1 (as amended): on the RFC 2617 worked example (realm
    testrealm@host.com, user Mufasa, password Circle Of Life, GET
    /dir/index.html, nonce dcd98b7102dd2f0e8b11d0f600bfb0c093, nc 00000001,
    cnonce 0a4f113b, qop auth, algorithm MD5) [calc_response] returns the
    32 character digest 6629fae49393a05397450978507c4ef1. *)
Theorem C1_rfc2617_response :
  rfc2617_example = Return (PyStr (lit "6629fae49393a05397450978507c4ef1")).
Proof. vm_compute. reflexivity. Qed.

(** C1, as stated, fails: the 31 character string of the claim, which lacks
    the final 1, is not what [calc_response] returns on the example. *)
Lemma C1_truncated_digest_refuted :
  rfc2617_example <> Return (PyStr (lit "6629fae49393a05397450978507c4ef")).
Proof. vm_compute. discriminate. Qed.

(** C2, as stated, fails: with the unsupported qop bogus, the default
    algorithm and no cnonce, HA1 is computed first and its error is the one
    raised, not the unsupported-qop error. *)
Lemma C2_ha1_error_precedes_qop_error :
  calc_response (lit "GET") (lit "/dir/index.html") (lit "stored") (lit "n0")
    (Some (lit "bogus")) default_algorithm None None None
  = Raise (UnauthorizedException
             (msg_missing_cnonce_algorithm (Some (lit "MD5-sess"))))
  /\ calc_response (lit "GET") (lit "/dir/index.html") (lit "stored")
       (lit "n0") (Some (lit "bogus")) default_algorithm None None None
     <> Raise (UnauthorizedException (msg_unsupported_qop (Some (lit "bogus")))).
Proof. split; [reflexivity | vm_compute; discriminate]. Qed.

(** The same with an unsupported algorithm, whatever cnonce is. *)
Example unsupported_algorithm_precedes_qop_error :
  calc_response (lit "GET") (lit "/dir/index.html") (lit "stored") (lit "n0")
    (Some (lit "bogus")) (Some (lit "ROT13")) (Some (lit "c0")) None None
  = Raise (UnauthorizedException
             (msg_unsupported_algorithm (Some (lit "ROT13")))).
Proof. reflexivity. Qed.

(** C2 (as amended): whenever the HA1 computation succeeds, a qop other
    than unset, auth and auth-int makes [calc_response] raise the
    unsupported-qop error, whether cnonce, nc or body are present or not;
    in particular nothing is returned. *)
Theorem C2_unsupported_qop method uri password_hash nonce (q : pystr)
        algorithm cnonce nc body (ha1 : pystr) :
  q <> lit "auth" -> q <> lit "auth-int" ->
  __calc_ha1 password_hash nonce algorithm cnonce = Return ha1 ->
  calc_response method uri password_hash nonce (Some q) algorithm cnonce nc
                body
  = Raise (UnauthorizedException (msg_unsupported_qop (Some q))).
Proof.
  intros N1 N2 H1; unfold calc_response; rewrite H1; cbn [bind].
  rewrite calc_ha2_unsupported by assumption; reflexivity.
Qed.

(** C2 at qop bogus with algorithm MD5 and a cnonce present: the call
    raises, it does not fall through. *)
Lemma C2_unsupported_qop_witness :
  calc_response (lit "GET") (lit "/dir/index.html") (lit "stored") (lit "n0")
    (Some (lit "bogus")) (Some (lit "MD5")) (Some (lit "c0")) None None
  = Raise (UnauthorizedException (msg_unsupported_qop (Some (lit "bogus")))).
Proof.
  apply (C2_unsupported_qop _ _ _ _ _ _ _ _ _ (lit "stored"));
    [vm_compute; discriminate | vm_compute; discriminate | reflexivity].
Defined.

(** C3, as stated, fails: with qop unset and the default algorithm
    MD5-sess, two calls that differ only in cnonce return different
    digests. *)
Lemma C3_md5_sess_depends_on_cnonce :
  calc_response (lit "GET") (lit "/dir/index.html") (lit "stored") (lit "n0")
    None default_algorithm (Some (lit "c0")) None None
  <> calc_response (lit "GET") (lit "/dir/index.html") (lit "stored")
       (lit "n0") None default_algorithm (Some (lit "c1")) None None.
Proof. vm_compute. discriminate. Qed.

(** C3 (as amended): with qop unset, two calls that agree on everything
    except nc, and except cnonce when the algorithm is not MD5-sess, have
    the same outcome.  (With MD5-sess the cnonce enters HA1.) *)
Theorem C3_qop_unset_ignores_nc_cnonce method uri password_hash nonce
        algorithm (cnonce cnonce' nc nc' : option pystr) body :
  (algorithm = Some (lit "MD5-sess") -> cnonce = cnonce') ->
  calc_response method uri password_hash nonce None algorithm cnonce nc body
  = calc_response method uri password_hash nonce None algorithm cnonce' nc'
                  body.
Proof.
  intros H; unfold calc_response.
  rewrite (calc_ha1_cnonce password_hash nonce algorithm cnonce cnonce' H).
  reflexivity.
Qed.

(** C3 at algorithm MD5: dropping cnonce and changing nc keeps the
    outcome. *)
Lemma C3_qop_unset_ignores_nc_cnonce_witness :
  calc_response (lit "GET") (lit "/dir/index.html") (lit "stored") (lit "n0")
    None (Some (lit "MD5")) (Some (lit "c0")) (Some (lit "00000001")) None
  = calc_response (lit "GET") (lit "/dir/index.html") (lit "stored")
      (lit "n0") None (Some (lit "MD5")) None (Some (lit "00000002")) None.
Proof.
  apply C3_qop_unset_ignores_nc_cnonce.
  vm_compute; discriminate.
Defined.

(** C4, as stated, fails: under MD5-sess with a cnonce that holds a lone
    surrogate, HA1 is not the hash of password_hash:nonce:cnonce; the codec
    raises while the string is being encoded. *)
Lemma C4_surrogate_cnonce_raises :
  __calc_ha1 (lit "stored") (lit "n0") (Some (lit "MD5-sess")) (Some [0xDC80])
  = Raise UnicodeEncodeError.
Proof. reflexivity. Qed.

(** C4 (as amended): HA1 is the stored hash when the algorithm is unset or
    MD5; with MD5-sess and cnonce present it is the MD5 hex digest of the
    UTF-8 bytes of password_hash:nonce:cnonce, provided none of the three
    holds a surrogate; with MD5-sess and cnonce absent it is the
    missing-cnonce error, whatever qop is in the enclosing [calc_response];
    any other algorithm raises the unsupported-algorithm error. *)
Theorem C4_calc_ha1 :
  (forall password_hash nonce algorithm cnonce,
      algorithm = None \/ algorithm = Some (lit "MD5") ->
      __calc_ha1 password_hash nonce algorithm cnonce = Return password_hash)
  /\ (forall password_hash nonce cn,
         Utf8.encodable password_hash = true ->
         Utf8.encodable nonce = true ->
         Utf8.encodable cn = true ->
         __calc_ha1 password_hash nonce (Some (lit "MD5-sess")) (Some cn)
         = Return (md5_hex
                     (password_hash ++ lit ":" ++ nonce ++ lit ":" ++ cn)))
  /\ (forall password_hash nonce,
         __calc_ha1 password_hash nonce (Some (lit "MD5-sess")) None
         = Raise (UnauthorizedException
                    (msg_missing_cnonce_algorithm (Some (lit "MD5-sess")))))
  /\ (forall method uri password_hash nonce qop nc body,
         calc_response method uri password_hash nonce qop
                       (Some (lit "MD5-sess")) None nc body
         = Raise (UnauthorizedException
                    (msg_missing_cnonce_algorithm (Some (lit "MD5-sess")))))
  /\ (forall password_hash nonce (a : pystr) cnonce,
         a <> lit "MD5" -> a <> lit "MD5-sess" ->
         __calc_ha1 password_hash nonce (Some a) cnonce
         = Raise (UnauthorizedException (msg_unsupported_algorithm (Some a)))).
Proof.
  split; [|split; [|split; [|split]]].
  - intros ph nonce algorithm cnonce [-> | ->]; reflexivity.
  - intros ph nonce cn Hp Hn Hc.
    change (__calc_ha1 ph nonce (Some (lit "MD5-sess")) (Some cn))
      with (md5_utf8_hexdigest (ph ++ lit ":" ++ nonce ++ lit ":" ++ cn)).
    apply md5_utf8_hexdigest_ok; enc.
  - reflexivity.
  - intros; apply calc_response_ha1_Raise, calc_ha1_md5_sess_no_cnonce.
  - intros ph nonce a cnonce N1 N2; unfold __calc_ha1.
    rewrite !eq_lit_Some_neq by assumption; reflexivity.
Qed.

(** C4 at algorithm MD5, at MD5-sess with the cnonce of the RFC 2617
    example, and at the unsupported algorithm ROT13. *)
Lemma C4_calc_ha1_witness :
  __calc_ha1 (lit "stored") (lit "n0") (Some (lit "MD5")) None
  = Return (lit "stored")
  /\ __calc_ha1 (lit "stored") (lit "n0") (Some (lit "MD5-sess"))
       (Some (lit "0a4f113b"))
     = Return (md5_hex (lit "stored" ++ lit ":" ++ lit "n0" ++ lit ":"
                          ++ lit "0a4f113b"))
  /\ __calc_ha1 (lit "stored") (lit "n0") (Some (lit "ROT13")) (Some (lit "c0"))
     = Raise (UnauthorizedException
                (msg_unsupported_algorithm (Some (lit "ROT13")))).
Proof.
  destruct C4_calc_ha1 as (Hmd5 & Hsess & _ & _ & Hother);
    split; [|split].
  - apply Hmd5; right; reflexivity.
  - apply Hsess; reflexivity.
  - apply Hother; vm_compute; discriminate.
Defined.

(** C5, as stated, fails: with a lone surrogate in the uri, HA2 is not the
    hash of method:uri; the codec raises while the string is being
    encoded. *)
Lemma C5_surrogate_uri_raises :
  __calc_ha2 (lit "GET") (lit "/" ++ [0xDC80]) None None
  = Raise UnicodeEncodeError.
Proof. reflexivity. Qed.

(** C5 (as amended): for method and uri free of surrogates, HA2 is the MD5
    hex digest of the UTF-8 bytes of method:uri when qop is unset or auth,
    and of method:uri:hexdigest(body), the body being hashed first, when
    qop is auth-int and the body is present; with auth-int and the body
    absent it is the missing-body error, whatever method and uri are. *)
Theorem C5_calc_ha2 :
  (forall method uri qop body,
      qop = None \/ qop = Some (lit "auth") ->
      Utf8.encodable method = true -> Utf8.encodable uri = true ->
      __calc_ha2 method uri qop body
      = Return (md5_hex (method ++ lit ":" ++ uri)))
  /\ (forall method uri (b : pybytes),
         Utf8.encodable method = true -> Utf8.encodable uri = true ->
         __calc_ha2 method uri (Some (lit "auth-int")) (Some b)
         = Return (md5_hex
                     (method ++ lit ":" ++ uri ++ lit ":" ++ MD5.hexdigest b)))
  /\ (forall method uri,
         __calc_ha2 method uri (Some (lit "auth-int")) None
         = Raise (UnauthorizedException
                    (msg_missing_body (Some (lit "auth-int"))))).
Proof.
  split; [|split].
  - intros method uri qop body Hq Hm Hu.
    replace (__calc_ha2 method uri qop body)
      with (md5_utf8_hexdigest (method ++ lit ":" ++ uri))
      by (destruct Hq as [-> | ->]; reflexivity).
    apply md5_utf8_hexdigest_ok; enc.
  - intros method uri b Hm Hu.
    change (__calc_ha2 method uri (Some (lit "auth-int")) (Some b))
      with (md5_utf8_hexdigest
              (method ++ lit ":" ++ uri ++ lit ":" ++ MD5.hexdigest b)).
    apply md5_utf8_hexdigest_ok; enc.
  - reflexivity.
Qed.

(** C5 at qop auth on the request line of the RFC 2617 example, and at
    auth-int with a two byte body. *)
Lemma C5_calc_ha2_witness :
  __calc_ha2 (lit "GET") (lit "/dir/index.html") (Some (lit "auth")) None
  = Return (md5_hex (lit "GET" ++ lit ":" ++ lit "/dir/index.html"))
  /\ __calc_ha2 (lit "POST") (lit "/dir/index.html") (Some (lit "auth-int"))
       (Some [x61; x62])
     = Return (md5_hex (lit "POST" ++ lit ":" ++ lit "/dir/index.html"
                          ++ lit ":" ++ MD5.hexdigest [x61; x62])).
Proof.
  destruct C5_calc_ha2 as (Hauth & Hint & _); split.
  - apply Hauth; [right; reflexivity | reflexivity | reflexivity].
  - apply Hint; reflexivity.
Defined.

(** C6, as stated, fails: with qop auth, HA1 and HA2 returned and cnonce
    and nc both present, a lone surrogate in nc makes [calc_response] raise
    [UnicodeEncodeError] while the final string is being encoded; nothing is
    returned and neither missing-parameter error is raised. *)
Lemma C6_surrogate_nc_raises :
  __calc_ha1 (lit "stored") (lit "n0") (Some (lit "MD5")) (Some (lit "c0"))
  = Return (lit "stored")
  /\ __calc_ha2 (lit "GET") (lit "/dir/index.html") (Some (lit "auth")) None
     = Return (lit "39aff3a2bab6126f332b942af96d3366")
  /\ calc_response (lit "GET") (lit "/dir/index.html") (lit "stored")
       (lit "n0") (Some (lit "auth")) (Some (lit "MD5")) (Some (lit "c0"))
       (Some [0xD800]) None
     = Raise UnicodeEncodeError.
Proof. repeat split; vm_compute; reflexivity. Qed.

(** C6 (as amended): with qop auth or auth-int, once HA1 and HA2 have
    succeeded, [calc_response] raises the missing-cnonce error when cnonce
    is absent, otherwise the missing-nc error when nc is absent, and
    otherwise, provided HA1, nonce, nc and cnonce hold no surrogate, returns
    the MD5 hex digest of the UTF-8 bytes of HA1:nonce:nc:cnonce:qop:HA2. *)
Theorem C6_qop_checks method uri password_hash nonce (q : pystr) algorithm
        cnonce nc body (ha1 ha2 : pystr) :
  q = lit "auth" \/ q = lit "auth-int" ->
  __calc_ha1 password_hash nonce algorithm cnonce = Return ha1 ->
  __calc_ha2 method uri (Some q) body = Return ha2 ->
  (cnonce = None ->
   calc_response method uri password_hash nonce (Some q) algorithm cnonce nc
                 body
   = Raise (UnauthorizedException (msg_missing_cnonce_qop (Some q))))
  /\ (forall cn,
         cnonce = Some cn -> nc = None ->
         calc_response method uri password_hash nonce (Some q) algorithm
                       cnonce nc body
         = Raise (UnauthorizedException (msg_missing_nc_qop (Some q))))
  /\ (forall cn n,
         cnonce = Some cn -> nc = Some n ->
         Utf8.encodable ha1 = true -> Utf8.encodable nonce = true ->
         Utf8.encodable n = true -> Utf8.encodable cn = true ->
         calc_response method uri password_hash nonce (Some q) algorithm
                       cnonce nc body
         = Return (PyStr (md5_hex
             (ha1 ++ lit ":" ++ nonce ++ lit ":" ++ n ++ lit ":" ++ cn
                  ++ lit ":" ++ q ++ lit ":" ++ ha2)))).
Proof.
  intros Hq H1 H2.
  pose proof (calc_ha2_Return_inv _ _ _ _ _ H2) as (_ & _ & Hh2 & _).
  assert (Hqe : Utf8.encodable q = true)
    by (destruct Hq as [-> | ->]; reflexivity).
  unfold calc_response; rewrite H1, H2; cbn [bind].
  split; [|split].
  - intros ->; destruct Hq as [-> | ->]; reflexivity.
  - intros cn -> ->; destruct Hq as [-> | ->]; reflexivity.
  - intros cn n -> -> Hh1 Hn Hnc Hc.
    replace (if is_None (Some q) then _ else _)
      with (r <- md5_utf8_hexdigest
                   (ha1 ++ lit ":" ++ nonce ++ lit ":" ++ n ++ lit ":" ++ cn
                        ++ lit ":" ++ q ++ lit ":" ++ ha2) ;;
            Return (PyStr r))
      by (destruct Hq as [-> | ->]; reflexivity).
    rewrite md5_utf8_hexdigest_ok by enc; reflexivity.
Qed.

(** C6 on the RFC 2617 example, where cnonce and nc are both present, and
    with nc absent. *)
Lemma C6_qop_checks_witness :
  calc_response (lit "GET") (lit "/dir/index.html")
    (lit "939e7578ed9e3c518a452acee763bce9")
    (lit "dcd98b7102dd2f0e8b11d0f600bfb0c093") (Some (lit "auth"))
    (Some (lit "MD5")) (Some (lit "0a4f113b")) (Some (lit "00000001")) None
  = Return (PyStr (md5_hex
      (lit "939e7578ed9e3c518a452acee763bce9" ++ lit ":"
       ++ lit "dcd98b7102dd2f0e8b11d0f600bfb0c093" ++ lit ":"
       ++ lit "00000001" ++ lit ":" ++ lit "0a4f113b" ++ lit ":"
       ++ lit "auth" ++ lit ":" ++ lit "39aff3a2bab6126f332b942af96d3366")))
  /\ calc_response (lit "GET") (lit "/dir/index.html") (lit "stored")
       (lit "n0") (Some (lit "auth")) (Some (lit "MD5")) (Some (lit "c0"))
       None None
     = Raise (UnauthorizedException (msg_missing_nc_qop (Some (lit "auth")))).
Proof.
  split.
  - refine (proj2 (proj2
             (C6_qop_checks (lit "GET") (lit "/dir/index.html")
                (lit "939e7578ed9e3c518a452acee763bce9")
                (lit "dcd98b7102dd2f0e8b11d0f600bfb0c093") (lit "auth")
                (Some (lit "MD5")) (Some (lit "0a4f113b"))
                (Some (lit "00000001")) None
                (lit "939e7578ed9e3c518a452acee763bce9")
                (lit "39aff3a2bab6126f332b942af96d3366")
                (or_introl eq_refl) eq_refl _))
             (lit "0a4f113b") (lit "00000001") eq_refl eq_refl _ _ _ _);
      vm_compute; reflexivity.
  - refine (proj1 (proj2
             (C6_qop_checks (lit "GET") (lit "/dir/index.html") (lit "stored")
                (lit "n0") (lit "auth") (Some (lit "MD5")) (Some (lit "c0"))
                None None (lit "stored")
                (lit "39aff3a2bab6126f332b942af96d3366")
                (or_introl eq_refl) eq_refl _))
             (lit "c0") eq_refl eq_refl);
      vm_compute; reflexivity.
Defined.

(** [make_password_hash] returns only when the three strings can be
    encoded. *)
Lemma make_password_hash_Return_encodable (realm username password h : pystr) :
  make_password_hash realm username password = Return h ->
  Utf8.encodable realm = true /\ Utf8.encodable username = true
  /\ Utf8.encodable password = true.
Proof.
  unfold make_password_hash, md5_utf8_hexdigest; intros H.
  apply bind_Return in H as (b & Hb & _).
  assert (E : Utf8.encodable
                (username ++ lit ":" ++ realm ++ lit ":" ++ password) = true)
    by (apply encode_encodable; eauto).
  rewrite !encodable_app, !andb_true_iff in E; tauto.
Qed.

(** C7, as stated, fails: a [str] may hold a lone surrogate (here U+DC80,
    what the surrogateescape handler yields for the byte 0x80), which the
    UTF-8 codec refuses; [make_password_hash] then raises instead of
    returning a hash. *)
Lemma C7_lone_surrogate_rejected :
  make_password_hash (lit "testrealm@host.com") (lit "Mufasa") [0xDC80]
  = Raise UnicodeEncodeError.
Proof. reflexivity. Qed.

(** C7 (as amended): for every triple of strings free of surrogate code
    points, the empty string included, [make_password_hash] returns the MD5
    hex digest of the UTF-8 encoding of username:realm:password.  Being a
    function of its three arguments, it returns the same value on every
    call. *)
Theorem C7_make_password_hash_total (realm username password : pystr) :
  Utf8.encodable realm = true ->
  Utf8.encodable username = true ->
  Utf8.encodable password = true ->
  exists b,
    Utf8.encode (username ++ lit ":" ++ realm ++ lit ":" ++ password)
    = Return b
    /\ make_password_hash realm username password = Return (MD5.hexdigest b).
Proof.
  intros Hr Hu Hp; apply md5_utf8_hexdigest_encodable.
  rewrite !encodable_app, Hr, Hu, Hp; reflexivity.
Qed.

(** C7 at three empty strings. *)
Lemma C7_make_password_hash_total_witness :
  exists b,
    Utf8.encode ([] ++ lit ":" ++ [] ++ lit ":" ++ []) = Return b
    /\ make_password_hash [] [] [] = Return (MD5.hexdigest b).
Proof.
  apply (C7_make_password_hash_total [] [] []); reflexivity.
Defined.

(** C8: every value [make_password_hash] returns, and every value a
    successful [calc_response] returns, is a string of exactly 32
    characters, each in 0-9 or a-f. *)
Theorem C8_outputs_are_hex32 :
  (forall realm username password h,
      make_password_hash realm username password = Return h ->
      is_hex32 h = true)
  /\ (forall method uri password_hash nonce qop algorithm cnonce nc body v,
         calc_response method uri password_hash nonce qop algorithm cnonce
                       nc body = Return v ->
         exists h, v = PyStr h /\ is_hex32 h = true).
Proof.
  split.
  - intros realm username password h H.
    eapply md5_utf8_hexdigest_hex32; exact H.
  - intros; eapply calc_response_Return; eassumption.
Qed.

(** C8 at the stored hash of the RFC 2617 example. *)
Lemma C8_outputs_are_hex32_witness :
  is_hex32 (lit "939e7578ed9e3c518a452acee763bce9") = true.
Proof.
  apply (proj1 C8_outputs_are_hex32 (lit "testrealm@host.com") (lit "Mufasa")
           (lit "Circle Of Life")).
  vm_compute; reflexivity.
Defined.

(** C9: every call of [calc_response] either returns a digest string (32
    lowercase hexadecimal characters) or raises; it never evaluates to
    [None].  The trailing branch is out of
    reach: once [__calc_ha2] has returned, qop is unset, auth or auth-int,
    and each of these is handled by an earlier branch. *)
Theorem C9_calc_response_total :
  (forall method uri password_hash nonce qop algorithm cnonce nc body,
      (exists h,
          calc_response method uri password_hash nonce qop algorithm cnonce
                        nc body = Return (PyStr h)
          /\ is_hex32 h = true)
      \/ (exists e,
             calc_response method uri password_hash nonce qop algorithm
                           cnonce nc body = Raise e))
  /\ (forall method uri qop body ha2,
         __calc_ha2 method uri qop body = Return ha2 ->
         qop = None \/ qop = Some (lit "auth") \/ qop = Some (lit "auth-int")).
Proof.
  split.
  - intros method uri password_hash nonce qop algorithm cnonce nc body.
    destruct (calc_response method uri password_hash nonce qop algorithm
                            cnonce nc body) as [v|e] eqn:E.
    + left. apply calc_response_Return in E as (h & -> & Hh). eauto.
    + right; eauto.
  - intros; eapply calc_ha2_Return_qop; eassumption.
Qed.

(** C9 at qop auth, where [__calc_ha2] returns. *)
Lemma C9_calc_response_total_witness :
  Some (lit "auth") = None \/ Some (lit "auth") = Some (lit "auth")
  \/ Some (lit "auth") = Some (lit "auth-int").
Proof.
  apply (proj2 C9_calc_response_total (lit "GET") (lit "/dir/index.html")
           (Some (lit "auth")) None (lit "39aff3a2bab6126f332b942af96d3366")).
  vm_compute; reflexivity.
Defined.

(** C10: with algorithm MD5-sess (the default), qop auth or auth-int and no
    cnonce, [calc_response] raises the missing-cnonce error of HA1, whose
    message names the algorithm, and not the missing-cnonce error of the
    qop check. *)
Theorem C10_ha1_cnonce_error_first method uri password_hash nonce (q : pystr)
        nc body :
  q = lit "auth" \/ q = lit "auth-int" ->
  calc_response method uri password_hash nonce (Some q) default_algorithm
                None nc body
  = Raise (UnauthorizedException
             (msg_missing_cnonce_algorithm (Some (lit "MD5-sess"))))
  /\ msg_missing_cnonce_algorithm (Some (lit "MD5-sess"))
     <> msg_missing_cnonce_qop (Some q).
Proof.
  intros Hq; split.
  - apply calc_response_ha1_Raise, calc_ha1_md5_sess_no_cnonce.
  - destruct Hq as [-> | ->]; vm_compute; discriminate.
Qed.

(** C10 at qop auth-int with nc present. *)
Lemma C10_ha1_cnonce_error_first_witness :
  calc_response (lit "GET") (lit "/dir/index.html") (lit "stored") (lit "n0")
    (Some (lit "auth-int")) default_algorithm None (Some (lit "00000001"))
    None
  = Raise (UnauthorizedException
             (msg_missing_cnonce_algorithm (Some (lit "MD5-sess"))))
  /\ msg_missing_cnonce_algorithm (Some (lit "MD5-sess"))
     <> msg_missing_cnonce_qop (Some (lit "auth-int")).
Proof.
  apply C10_ha1_cnonce_error_first; right; reflexivity.
Defined.

(* ================================================================= *)
(** ** Further properties of the calculators *)

(** X1: [calc_response] returns a digest exactly on the argument tuples
    that [calc_response_accepts] describes: method, uri, password_hash and
    nonce free of surrogates; algorithm unset, MD5, or MD5-sess with an
    encodable cnonce; qop unset, or auth, or auth-int with a body, and in
    both of these cases cnonce and nc present and encodable. *)
Theorem X1_calc_response_returns_iff method uri password_hash nonce qop
        algorithm cnonce nc body :
  (exists h,
      calc_response method uri password_hash nonce qop algorithm cnonce nc
                    body = Return (PyStr h))
  <-> calc_response_accepts method uri password_hash nonce qop algorithm
                            cnonce nc body = true.
Proof.
  split.
  - intros [h H]; unfold calc_response in H.
    apply bind_Return in H as (ha1 & H1 & H).
    apply bind_Return in H as (ha2 & H2 & H).
    apply calc_ha2_Return_inv in H2 as (Hm & Hu & Hh2 & Hq).
    unfold calc_response_accepts; rewrite Hm, Hu; cbn [andb].
    assert (Hfin : Utf8.encodable ha1 = true /\ Utf8.encodable nonce = true
                   /\ (is_None qop
                       || ((eq_lit qop "auth"
                            || (eq_lit qop "auth-int" && is_Some body))
                           && is_Some cnonce && is_Some nc
                           && opt_encodable cnonce && opt_encodable nc))
                      = true).
    { destruct Hq as [-> | [-> | [-> [b ->]]]]; qop_tests in H.
      - apply bind_Return in H as (r & Hr & _).
        apply md5_utf8_hexdigest_Return_inv in Hr as [E _].
        rewrite !encodable_app in E; split_andb; auto.
      - destruct cnonce as [cn|]; [|discriminate].
        destruct nc as [n|]; [|discriminate].
        apply bind_Return in H as (r & Hr & _).
        apply md5_utf8_hexdigest_Return_inv in Hr as [E _].
        rewrite !encodable_app in E; split_andb.
        qop_tests. rewrite andb_true_iff; auto.
      - destruct cnonce as [cn|]; [|discriminate].
        destruct nc as [n|]; [|discriminate].
        apply bind_Return in H as (r & Hr & _).
        apply md5_utf8_hexdigest_Return_inv in Hr as [E _].
        rewrite !encodable_app in E; split_andb.
        qop_tests. rewrite andb_true_iff; auto. }
    destruct Hfin as (Hh1 & Hn & ->); rewrite Hn, andb_true_r.
    apply calc_ha1_Return_inv in H1
      as [[Ha ->] | (Ha & Hs & cn & -> & E & ->)].
    + rewrite Hh1, Ha; reflexivity.
    + rewrite !encodable_app in E; split_andb.
      rewrite Ha, Hs; cbn [orb andb is_Some opt_encodable].
      rewrite andb_true_r; apply andb_true_iff; auto.
  - unfold calc_response_accepts; intros H; split_andb.
    assert (Hha1 : exists ha1,
               __calc_ha1 password_hash nonce algorithm cnonce = Return ha1
               /\ Utf8.encodable ha1 = true).
    { unfold __calc_ha1.
      destruct (is_None algorithm || eq_lit algorithm "MD5"); [eauto|].
      cbn [orb] in *; split_andb.
      match goal with Hs : eq_lit algorithm _ = true |- _ => rewrite Hs end.
      destruct cnonce as [cn|]; [|discriminate].
      rewrite md5_utf8_hexdigest_ok by enc.
      eauto using md5_hex_encodable. }
    destruct Hha1 as (ha1 & Hha1 & Hh1).
    unfold calc_response; rewrite Hha1; cbn [bind].
    destruct qop as [q|].
    + cbn [is_None orb] in *; split_andb.
      destruct cnonce as [cn|]; [|discriminate].
      destruct nc as [n|]; [|discriminate].
      cbn [opt_encodable] in *.
      match goal with
        Hx : eq_lit (Some q) "auth" || _ = true |- _ => rename Hx into Hq
      end.
      apply orb_true_iff in Hq as [Hq | Hq].
      * apply eq_lit_true in Hq; injection Hq as ->.
        unfold __calc_ha2; qop_tests.
        rewrite md5_utf8_hexdigest_ok by enc; cbn [bind].
        rewrite md5_utf8_hexdigest_ok by enc; cbn [bind]. eauto.
      * apply andb_true_iff in Hq as [Hq Hb].
        apply eq_lit_true in Hq; injection Hq as ->.
        destruct body as [b|]; [|discriminate].
        unfold __calc_ha2; qop_tests.
        rewrite md5_utf8_hexdigest_ok by enc; cbn [bind].
        rewrite md5_utf8_hexdigest_ok by enc; cbn [bind]. eauto.
    + unfold __calc_ha2; qop_tests.
      rewrite md5_utf8_hexdigest_ok by enc; cbn [bind].
      rewrite md5_utf8_hexdigest_ok by enc; cbn [bind]. eauto.
Qed.

Lemma utf8_encode (s : pystr) :
  Utf8.encodable s = true -> Utf8.encode s = Return (utf8 s).
Proof.
  intros H; apply encode_encodable in H as [b Hb].
  unfold utf8; rewrite Hb; reflexivity.
Qed.

(** [__calc_ha2] reads the body only under auth-int. *)
Lemma calc_ha2_body (method uri : pystr) (qop : option pystr)
      (body body' : option pybytes) :
  qop <> Some (lit "auth-int") ->
  __calc_ha2 method uri qop body = __calc_ha2 method uri qop body'.
Proof.
  intros N; unfold __calc_ha2.
  destruct (is_None qop || eq_lit qop "auth"); [reflexivity|].
  destruct (eq_lit qop "auth-int") eqn:E; [|reflexivity].
  apply eq_lit_true in E; contradiction.
Qed.

(** X2: when none of the strings passed holds a surrogate, the only
    exception [calc_response] raises is [UnauthorizedException]; no
    [UnicodeEncodeError] reaches the caller. *)
Theorem X2_only_unauthorized method uri password_hash nonce qop algorithm
        cnonce nc body (e : exn) :
  Utf8.encodable method = true -> Utf8.encodable uri = true ->
  Utf8.encodable password_hash = true -> Utf8.encodable nonce = true ->
  opt_encodable cnonce = true -> opt_encodable nc = true ->
  calc_response method uri password_hash nonce qop algorithm cnonce nc body
  = Raise e ->
  exists msg, e = UnauthorizedException msg.
Proof.
  intros Hm Hu Hp Hn Hc Hnc; unfold calc_response.
  destruct (__calc_ha1 password_hash nonce algorithm cnonce) as [ha1|e1] eqn:E1.
  - assert (Hh1 : Utf8.encodable ha1 = true).
    { apply calc_ha1_Return_inv in E1 as [[_ ->] | (_ & _ & cn & _ & _ & ->)];
        [assumption | apply md5_hex_encodable]. }
    cbn [bind].
    destruct (__calc_ha2 method uri qop body) as [ha2|e2] eqn:E2.
    + apply calc_ha2_Return_inv in E2 as (_ & _ & Hh2 & Hq).
      cbn [bind].
      destruct Hq as [-> | [-> | [-> _]]]; qop_tests.
      * rewrite md5_utf8_hexdigest_ok by enc; discriminate.
      * destruct cnonce as [cn|]; [|intros E; injection E as <-; eauto].
        destruct nc as [n|]; [|intros E; injection E as <-; eauto].
        cbn [opt_encodable] in *.
        rewrite md5_utf8_hexdigest_ok by enc; discriminate.
      * destruct cnonce as [cn|]; [|intros E; injection E as <-; eauto].
        destruct nc as [n|]; [|intros E; injection E as <-; eauto].
        cbn [opt_encodable] in *.
        rewrite md5_utf8_hexdigest_ok by enc; discriminate.
    + cbn [bind]; intros E; injection E as <-.
      unfold __calc_ha2 in E2.
      destruct (is_None qop || eq_lit qop "auth").
      * rewrite md5_utf8_hexdigest_ok in E2 by enc; discriminate.
      * destruct (eq_lit qop "auth-int"); [|injection E2 as <-; eauto].
        destruct body as [b|]; [|injection E2 as <-; eauto].
        rewrite md5_utf8_hexdigest_ok in E2 by enc; discriminate.
  - cbn [bind]; intros E; injection E as <-.
    unfold __calc_ha1 in E1.
    destruct (is_None algorithm || eq_lit algorithm "MD5"); [discriminate|].
    destruct (eq_lit algorithm "MD5-sess"); [|injection E1 as <-; eauto].
    destruct cnonce as [cn|]; [|injection E1 as <-; eauto].
    cbn [opt_encodable] in *.
    rewrite md5_utf8_hexdigest_ok in E1 by enc; discriminate.
Qed.

(** X2 at auth-int without a body. *)
Lemma X2_only_unauthorized_witness :
  exists msg,
    UnauthorizedException (msg_missing_body (Some (lit "auth-int")))
    = UnauthorizedException msg.
Proof.
  apply (X2_only_unauthorized (lit "GET") (lit "/dir/index.html")
           (lit "stored") (lit "n0") (Some (lit "auth-int"))
           (Some (lit "MD5")) (Some (lit "c0")) (Some (lit "00000001"))
           None); reflexivity.
Defined.

(** X3: the body takes part in the response only under qop auth-int: for
    every other qop, two calls that differ only in the body have the same
    outcome. *)
Theorem X3_body_only_with_auth_int method uri password_hash nonce qop
        algorithm cnonce nc (body body' : option pybytes) :
  qop <> Some (lit "auth-int") ->
  calc_response method uri password_hash nonce qop algorithm cnonce nc body
  = calc_response method uri password_hash nonce qop algorithm cnonce nc
                  body'.
Proof.
  intros N; unfold calc_response.
  rewrite (calc_ha2_body method uri qop body body' N); reflexivity.
Qed.

(** X3 at qop auth, with and without a body. *)
Lemma X3_body_only_with_auth_int_witness :
  calc_response (lit "POST") (lit "/dir/index.html") (lit "stored")
    (lit "n0") (Some (lit "auth")) (Some (lit "MD5")) (Some (lit "c0"))
    (Some (lit "00000001")) (Some [x61; x62])
  = calc_response (lit "POST") (lit "/dir/index.html") (lit "stored")
      (lit "n0") (Some (lit "auth")) (Some (lit "MD5")) (Some (lit "c0"))
      (Some (lit "00000001")) None.
Proof.
  apply X3_body_only_with_auth_int; vm_compute; discriminate.
Defined.

(** X4: the three fields are joined with colons and not escaped, so the
    stored hash depends only on the joined string: a colon-separated part
    can move between username and realm, or between realm and password,
    without changing the hash. *)
Theorem X4_make_password_hash_colon (realm username password x : pystr) :
  make_password_hash realm (username ++ lit ":" ++ x) password
  = make_password_hash (x ++ lit ":" ++ realm) username password
  /\ make_password_hash (realm ++ lit ":" ++ x) username password
     = make_password_hash realm username (x ++ lit ":" ++ password).
Proof.
  unfold make_password_hash; split; f_equal; rewrite <- !app_assoc;
    reflexivity.
Qed.

(** X5: with an algorithm other than MD5-sess, nc and cnonce enter the
    response only through the joined string nc:cnonce (under qop auth and
    auth-int; otherwise they are not hashed at all): a colon-separated part
    can move from the end of nc to the front of cnonce without changing the
    outcome, for every qop. *)
Theorem X5_nc_cnonce_colon method uri password_hash nonce qop algorithm
        (n x cn : pystr) body :
  algorithm <> Some (lit "MD5-sess") ->
  calc_response method uri password_hash nonce qop algorithm
                (Some cn) (Some (n ++ lit ":" ++ x)) body
  = calc_response method uri password_hash nonce qop algorithm
                  (Some (x ++ lit ":" ++ cn)) (Some n) body.
Proof.
  intros N; unfold calc_response.
  rewrite (calc_ha1_cnonce password_hash nonce algorithm (Some cn)
             (Some (x ++ lit ":" ++ cn))) by (intros E; contradiction).
  destruct (__calc_ha1 _ _ _ _) as [ha1|e1]; [|reflexivity].
  destruct (__calc_ha2 _ _ _ _) as [ha2|e2]; [|reflexivity].
  cbn [bind]. rewrite <- !app_assoc. reflexivity.
Qed.

(** X5 at qop auth and algorithm MD5: nc 01:02 with cnonce c0, and nc 01
    with cnonce 02:c0. *)
Lemma X5_nc_cnonce_colon_witness :
  calc_response (lit "GET") (lit "/dir/index.html") (lit "stored") (lit "n0")
    (Some (lit "auth")) (Some (lit "MD5")) (Some (lit "c0"))
    (Some (lit "01" ++ lit ":" ++ lit "02")) None
  = calc_response (lit "GET") (lit "/dir/index.html") (lit "stored")
      (lit "n0") (Some (lit "auth")) (Some (lit "MD5"))
      (Some (lit "02" ++ lit ":" ++ lit "c0")) (Some (lit "01")) None.
Proof.
  apply X5_nc_cnonce_colon; vm_compute; discriminate.
Defined.

(** X6: with qop unset and the algorithm unset or MD5, on strings free of
    surrogates [calc_response] returns the digest of
    password_hash:nonce:md5(method:uri), the response of the original
    digest scheme, whatever cnonce, nc and body are. *)
Theorem X6_legacy_response method uri password_hash nonce algorithm cnonce
        nc body :
  algorithm = None \/ algorithm = Some (lit "MD5") ->
  Utf8.encodable method = true -> Utf8.encodable uri = true ->
  Utf8.encodable password_hash = true -> Utf8.encodable nonce = true ->
  calc_response method uri password_hash nonce None algorithm cnonce nc body
  = Return (PyStr (md5_hex (password_hash ++ lit ":" ++ nonce ++ lit ":"
                              ++ md5_hex (method ++ lit ":" ++ uri)))).
Proof.
  intros Ha Hm Hu Hp Hn; unfold calc_response, __calc_ha1, __calc_ha2.
  destruct Ha as [-> | ->]; qop_tests; cbn [bind].
  - rewrite md5_utf8_hexdigest_ok by enc; cbn [bind].
    rewrite md5_utf8_hexdigest_ok by enc; reflexivity.
  - rewrite md5_utf8_hexdigest_ok by enc; cbn [bind].
    rewrite md5_utf8_hexdigest_ok by enc; reflexivity.
Qed.

(** X6 at algorithm MD5 on the RFC 2617 request line. *)
Lemma X6_legacy_response_witness :
  calc_response (lit "GET") (lit "/dir/index.html") (lit "stored") (lit "n0")
    None (Some (lit "MD5")) None None None
  = Return (PyStr (md5_hex (lit "stored" ++ lit ":" ++ lit "n0" ++ lit ":"
                      ++ md5_hex (lit "GET" ++ lit ":"
                                    ++ lit "/dir/index.html")))).
Proof.
  apply X6_legacy_response; [right; reflexivity | reflexivity ..].
Defined.

(** X7: the stored hash and the response compose to the RFC 2617 formula.
    On strings free of surrogates, with qop auth and algorithm MD5, the
    response computed from the hash that [make_password_hash] returns is
    md5(md5(username:realm:password):nonce:nc:cnonce:auth:md5(method:uri)). *)
Theorem X7_auth_md5_end_to_end realm username password method uri nonce
        (cn n : pystr) body :
  Utf8.encodable realm = true -> Utf8.encodable username = true ->
  Utf8.encodable password = true ->
  Utf8.encodable method = true -> Utf8.encodable uri = true ->
  Utf8.encodable nonce = true ->
  Utf8.encodable cn = true -> Utf8.encodable n = true ->
  (password_hash <- make_password_hash realm username password ;;
   calc_response method uri password_hash nonce (Some (lit "auth"))
                 (Some (lit "MD5")) (Some cn) (Some n) body)
  = Return (PyStr (md5_hex
      (md5_hex (username ++ lit ":" ++ realm ++ lit ":" ++ password)
       ++ lit ":" ++ nonce ++ lit ":" ++ n ++ lit ":" ++ cn ++ lit ":"
       ++ lit "auth" ++ lit ":" ++ md5_hex (method ++ lit ":" ++ uri)))).
Proof.
  intros Hr Hus Hpw Hm Hu Hn Hc Hnc.
  unfold make_password_hash.
  rewrite md5_utf8_hexdigest_ok by enc; cbn [bind].
  unfold calc_response, __calc_ha1, __calc_ha2; qop_tests; cbn [bind].
  rewrite md5_utf8_hexdigest_ok by enc; cbn [bind].
  rewrite md5_utf8_hexdigest_ok by enc; reflexivity.
Qed.

(** X7 at empty realm, username and password. *)
Lemma X7_auth_md5_end_to_end_witness :
  (password_hash <- make_password_hash [] [] [] ;;
   calc_response (lit "GET") (lit "/") password_hash (lit "n0")
     (Some (lit "auth")) (Some (lit "MD5")) (Some (lit "c0"))
     (Some (lit "00000001")) None)
  = Return (PyStr (md5_hex
      (md5_hex ([] ++ lit ":" ++ [] ++ lit ":" ++ [])
       ++ lit ":" ++ lit "n0" ++ lit ":" ++ lit "00000001" ++ lit ":"
       ++ lit "c0" ++ lit ":" ++ lit "auth" ++ lit ":"
       ++ md5_hex (lit "GET" ++ lit ":" ++ lit "/")))).
Proof.
  apply X7_auth_md5_end_to_end; reflexivity.
Defined.

(** X8: the session variant with body integrity.  On strings free of
    surrogates, with algorithm MD5-sess, qop auth-int and cnonce, nc and body
    present, [calc_response] returns
    md5(md5(password_hash:nonce:cnonce):nonce:nc:cnonce:auth-int:
        md5(method:uri:md5(body))); the body may be any bytes. *)
Theorem X8_md5_sess_auth_int method uri password_hash nonce (cn n : pystr)
        (b : pybytes) :
  Utf8.encodable method = true -> Utf8.encodable uri = true ->
  Utf8.encodable password_hash = true -> Utf8.encodable nonce = true ->
  Utf8.encodable cn = true -> Utf8.encodable n = true ->
  calc_response method uri password_hash nonce (Some (lit "auth-int"))
                (Some (lit "MD5-sess")) (Some cn) (Some n) (Some b)
  = Return (PyStr (md5_hex
      (md5_hex (password_hash ++ lit ":" ++ nonce ++ lit ":" ++ cn)
       ++ lit ":" ++ nonce ++ lit ":" ++ n ++ lit ":" ++ cn ++ lit ":"
       ++ lit "auth-int" ++ lit ":"
       ++ md5_hex (method ++ lit ":" ++ uri ++ lit ":" ++ MD5.hexdigest b)))).
Proof.
  intros Hm Hu Hp Hn Hc Hnc.
  unfold calc_response, __calc_ha1, __calc_ha2.
  change (is_None (Some (lit "MD5-sess")) || eq_lit (Some (lit "MD5-sess")) "MD5")
    with false.
  qop_tests; cbn [bind].
  rewrite md5_utf8_hexdigest_ok by enc; cbn [bind].
  rewrite md5_utf8_hexdigest_ok by enc; cbn [bind].
  rewrite md5_utf8_hexdigest_ok by enc; reflexivity.
Qed.

(** X8 on an empty body. *)
Lemma X8_md5_sess_auth_int_witness :
  calc_response (lit "POST") (lit "/") (lit "stored") (lit "n0")
    (Some (lit "auth-int")) (Some (lit "MD5-sess")) (Some (lit "c0"))
    (Some (lit "00000001")) (Some [])
  = Return (PyStr (md5_hex
      (md5_hex (lit "stored" ++ lit ":" ++ lit "n0" ++ lit ":" ++ lit "c0")
       ++ lit ":" ++ lit "n0" ++ lit ":" ++ lit "00000001" ++ lit ":"
       ++ lit "c0" ++ lit ":" ++ lit "auth-int" ++ lit ":"
       ++ md5_hex (lit "POST" ++ lit ":" ++ lit "/" ++ lit ":"
                     ++ MD5.hexdigest [])))).
Proof.
  apply X8_md5_sess_auth_int; reflexivity.
Defined.

(** X9: under qop auth-int without a body, once HA1 has succeeded the
    error raised is the missing-body error of HA2, also when cnonce or nc
    are missing as well and even when method or uri could not be encoded:
    the body is tested before anything is hashed. *)
Theorem X9_missing_body_first method uri password_hash nonce algorithm
        cnonce nc (ha1 : pystr) :
  __calc_ha1 password_hash nonce algorithm cnonce = Return ha1 ->
  calc_response method uri password_hash nonce (Some (lit "auth-int"))
                algorithm cnonce nc None
  = Raise (UnauthorizedException (msg_missing_body (Some (lit "auth-int")))).
Proof.
  intros H1; unfold calc_response; rewrite H1; reflexivity.
Qed.

(** X9 with cnonce and nc missing too and a surrogate in the uri. *)
Lemma X9_missing_body_first_witness :
  calc_response (lit "POST") [0xDC80] (lit "stored") (lit "n0")
    (Some (lit "auth-int")) (Some (lit "MD5")) None None None
  = Raise (UnauthorizedException (msg_missing_body (Some (lit "auth-int")))).
Proof.
  apply (X9_missing_body_first _ _ _ _ _ _ _ (lit "stored")); reflexivity.
Defined.

(** X10: [make_password_hash] returns a hash exactly when none of realm,
    username and password holds a surrogate (or another code point the
    UTF-8 codec refuses); colons, empty strings and non-ASCII characters
    are all accepted. *)
Theorem X10_make_password_hash_returns_iff (realm username password : pystr) :
  (exists h, make_password_hash realm username password = Return h)
  <-> Utf8.encodable realm && Utf8.encodable username
      && Utf8.encodable password = true.
Proof.
  split.
  - intros [h H].
    apply make_password_hash_Return_encodable in H as (Hr & Hu & Hp).
    rewrite Hr, Hu, Hp; reflexivity.
  - intros H; split_andb.
    unfold make_password_hash.
    rewrite md5_utf8_hexdigest_ok by enc; eauto.
Qed.

(** X11: the algorithm is tested before anything else.  For an algorithm
    other than MD5 and MD5-sess, [calc_response] raises the
    unsupported-algorithm error whatever the other arguments are: an
    unsupported qop, missing cnonce, nc or body, or strings the codec would
    refuse do not change the error. *)
Theorem X11_unsupported_algorithm_first method uri password_hash nonce qop
        (a : pystr) cnonce nc body :
  a <> lit "MD5" -> a <> lit "MD5-sess" ->
  calc_response method uri password_hash nonce qop (Some a) cnonce nc body
  = Raise (UnauthorizedException (msg_unsupported_algorithm (Some a))).
Proof.
  intros N1 N2; apply calc_response_ha1_Raise.
  unfold __calc_ha1; rewrite !eq_lit_Some_neq by assumption; reflexivity.
Qed.

(** X11 at the lower-case spelling md5-sess, with an unsupported qop and a
    surrogate in the nonce. *)
Lemma X11_unsupported_algorithm_first_witness :
  calc_response (lit "GET") (lit "/") (lit "stored") [0xDC80]
    (Some (lit "bogus")) (Some (lit "md5-sess")) None None None
  = Raise (UnauthorizedException
             (msg_unsupported_algorithm (Some (lit "md5-sess")))).
Proof.
  apply X11_unsupported_algorithm_first; vm_compute; discriminate.
Defined.
